(** * Smartcar-HA: the sensor platform and the entry-data helpers

    A shallow embedding of [custom_components/smartcar/sensor.py] and
    [custom_components/smartcar/util.py].

    Python values are modelled by the scalar values a status payload holds
    ([None], [bool], [int], [float], [str]); a Python [float] is an IEEE 754
    binary64 number, here the kernel's primitive [float].  A call that can
    raise returns a [result]. *)

From Stdlib Require Import ZArith Floats String Ascii List Bool.
From stdpp Require Import base list sorting strings.

Local Open Scope Z_scope.
Set Warnings "-inexact-float".

(** ** Python values and exceptions *)

Inductive PyVal : Type :=
  | PyNone
  | PyBool (b : bool)
  | PyInt (z : Z)
  | PyFloat (f : float)
  | PyStr (s : string).

Inductive PyExc : Type :=
  | TypeError
  | ValueError
  | OverflowError
  | ZeroDivisionError
  | HomeAssistantError (unit_name : string) (unit_class : string).

Inductive result (A : Type) : Type :=
  | Ok (a : A)
  | Raise (e : PyExc).

Arguments Ok {A} a.
Arguments Raise {A} e.

#[global] Instance result_bind : MBind result := fun A B k r =>
  match r with
  | Ok a => k a
  | Raise e => Raise e
  end.

(** [bool(v)]: the truth value Python gives a scalar. *)
Definition truthy (v : PyVal) : bool :=
  match v with
  | PyNone => false
  | PyBool b => b
  | PyInt z => negb (z =? 0)
  | PyFloat f => negb (f =? 0)%float
  | PyStr s => negb (String.eqb s "")
  end.

(** [a and b], with [b] evaluated only when [a] is truthy. *)
Definition py_and (a : PyVal) (b : result PyVal) : result PyVal :=
  if truthy a then b else Ok a.

Definition Z_of_bool (b : bool) : Z := if b then 1 else 0.

(** [float(z)] for an [int]: the nearest binary64 number, ties to even;
    [OverflowError] when [z] is too large for a float. *)
Definition float_of_Z (z : Z) : result float :=
  let f := SF2Prim (binary_normalize prec emax z 0 false) in
  if is_infinity f then Raise OverflowError else Ok f.

Fixpoint str_repeat (s : string) (n : nat) : string :=
  match n with
  | O => EmptyString
  | S n' => String.append s (str_repeat s n')
  end.

(** [v * k] for an [int] literal [k]. *)
Definition py_mul_int (v : PyVal) (k : Z) : result PyVal :=
  match v with
  | PyNone => Raise TypeError
  | PyBool b => Ok (PyInt (Z_of_bool b * k))
  | PyInt z => Ok (PyInt (z * k))
  | PyFloat f => kf ← float_of_Z k; Ok (PyFloat (f * kf)%float)
  | PyStr s => Ok (PyStr (str_repeat s (Z.to_nat k)))
  end.

(** The integer nearest to [m * 2^e], ties to the even one. *)
Definition round_half_even (m : positive) (e : Z) : Z :=
  if 0 <=? e then Z.pos m * 2 ^ e
  else
    let d := 2 ^ (- e) in
    let q := Z.pos m / d in
    let r := Z.pos m mod d in
    match 2 * r ?= d with
    | Lt => q
    | Gt => q + 1
    | Eq => if Z.even q then q else q + 1
    end.

(** [round(v)] with one argument: an [int]. *)
Definition py_round (v : PyVal) : result PyVal :=
  match v with
  | PyNone => Raise TypeError
  | PyBool b => Ok (PyInt (Z_of_bool b))
  | PyInt z => Ok (PyInt z)
  | PyFloat f =>
      match Prim2SF f with
      | S754_zero _ => Ok (PyInt 0)
      | S754_infinity _ => Raise OverflowError
      | S754_nan => Raise ValueError
      | S754_finite s m e =>
          Ok (PyInt (if s then - round_half_even m e else round_half_even m e))
      end
  | PyStr _ => Raise TypeError
  end.

(** [lambda pct: pct and round(pct * 100)], the [value_cast] of the
    BATTERY_LEVEL and FUEL_PERCENT descriptors. *)
Definition fraction_to_percent (pct : PyVal) : result PyVal :=
  py_and pct (p ← py_mul_int pct 100; py_round p).

(** ** The host platform's unit converters

    [sensor.py] imports [DistanceConverter] and [PressureConverter] from
    [homeassistant.util.unit_conversion].  A converter class is a table from
    unit names to ratios; [convert] looks both units up in the table of its
    own class and raises [HomeAssistantError] for a unit the table does not
    hold. *)

Module unit_conversion.

Record BaseUnitConverter : Type := {
  UNIT_CLASS : string;
  _UNIT_CONVERSION : list (string * float)
}.

Fixpoint table_get (table : list (string * float)) (unit_name : string)
  : option float :=
  match table with
  | [] => None
  | (u, ratio) :: rest =>
      if String.eqb u unit_name then Some ratio else table_get rest unit_name
  end.

(** [v / ratio] and [v * ratio] for a [float] ratio. *)
Definition py_truediv_float (v : PyVal) (ratio : float) : result PyVal :=
  if (ratio =? 0)%float then
    match v with
    | PyNone | PyStr _ => Raise TypeError
    | _ => Raise ZeroDivisionError
    end
  else
    match v with
    | PyNone | PyStr _ => Raise TypeError
    | PyBool b => x ← float_of_Z (Z_of_bool b); Ok (PyFloat (x / ratio)%float)
    | PyInt z => x ← float_of_Z z; Ok (PyFloat (x / ratio)%float)
    | PyFloat x => Ok (PyFloat (x / ratio)%float)
    end.

Definition py_mul_float (v : PyVal) (ratio : float) : result PyVal :=
  match v with
  | PyNone | PyStr _ => Raise TypeError
  | PyBool b => x ← float_of_Z (Z_of_bool b); Ok (PyFloat (x * ratio)%float)
  | PyInt z => x ← float_of_Z z; Ok (PyFloat (x * ratio)%float)
  | PyFloat x => Ok (PyFloat (x * ratio)%float)
  end.

(** [cls.convert(value, from_unit, to_unit)]. *)
Definition convert (cls : BaseUnitConverter) (value : PyVal)
    (from_unit to_unit : string) : result PyVal :=
  if String.eqb from_unit to_unit then Ok value
  else
    match table_get (_UNIT_CONVERSION cls) from_unit with
    | None => Raise (HomeAssistantError from_unit (UNIT_CLASS cls))
    | Some from_ratio =>
        match table_get (_UNIT_CONVERSION cls) to_unit with
        | None => Raise (HomeAssistantError to_unit (UNIT_CLASS cls))
        | Some to_ratio =>
            x ← py_truediv_float value from_ratio; py_mul_float x to_ratio
        end
    end.

Definition _IN_TO_M : float := 0.0254.
Definition _FOOT_TO_M : float := _IN_TO_M * 12.
Definition _YARD_TO_M : float := _FOOT_TO_M * 3.
Definition _MILE_TO_M : float := _YARD_TO_M * 1760.
Definition _KM_TO_M : float := 1000.
Definition _CM_TO_M : float := 0.01.
Definition _MM_TO_M : float := 0.001.
Definition _NAUTICAL_MILE_TO_M : float := 1852.

Definition DistanceConverter : BaseUnitConverter := {|
  UNIT_CLASS := "distance";
  _UNIT_CONVERSION :=
    [ ("m", 1); ("mm", 1 / _MM_TO_M); ("cm", 1 / _CM_TO_M);
      ("km", 1 / _KM_TO_M); ("ft", 1 / _FOOT_TO_M); ("in", 1 / _IN_TO_M);
      ("mi", 1 / _MILE_TO_M); ("nmi", 1 / _NAUTICAL_MILE_TO_M);
      ("yd", 1 / _YARD_TO_M) ]%float
|}.

Definition PressureConverter : BaseUnitConverter := {|
  UNIT_CLASS := "pressure";
  _UNIT_CONVERSION :=
    [ ("Pa", 1); ("hPa", 1 / 100); ("kPa", 1 / 1000); ("bar", 1 / 100000);
      ("cbar", 1 / 1000); ("mbar", 1 / 100); ("psi", 1 / 6894.757) ]%float
|}.

End unit_conversion.

Import unit_conversion.

(** Unit names of [homeassistant.const]. *)
Module UnitOfLength.
Definition KILOMETERS : string := "km".
Definition MILES : string := "mi".
End UnitOfLength.

Module UnitOfVolume.
Definition LITERS : string := "L".
Definition GALLONS : string := "gal".
End UnitOfVolume.

Module UnitOfPressure.
Definition KPA : string := "kPa".
Definition PSI : string := "psi".
End UnitOfPressure.

Module UnitOfEnergy.
Definition KILO_WATT_HOUR : string := "kWh".
End UnitOfEnergy.

Definition PERCENTAGE : string := "%".

(** ** Sensor descriptors ([sensor.py]) *)

(** The members of [EntityDescriptionKey] that [SENSOR_TYPES] names. *)
Inductive EntityDescriptionKey : Type :=
  | BATTERY_CAPACITY
  | BATTERY_LEVEL
  | CHARGING_STATE
  | ENGINE_OIL
  | FUEL
  | FUEL_PERCENT
  | FUEL_RANGE
  | ODOMETER
  | RANGE
  | TIRE_PRESSURE_BACK_LEFT
  | TIRE_PRESSURE_BACK_RIGHT
  | TIRE_PRESSURE_FRONT_LEFT
  | TIRE_PRESSURE_FRONT_RIGHT.

#[global] Instance EntityDescriptionKey_eq_dec : EqDecision EntityDescriptionKey.
Proof. solve_decision. Defined.

Module SensorDeviceClass.
Inductive t : Type := ENERGY_STORAGE | BATTERY | DISTANCE | PRESSURE.
End SensorDeviceClass.

Module SensorStateClass.
Inductive t : Type := MEASUREMENT | TOTAL_INCREASING.
End SensorStateClass.

(** A [Callable[[Any], Any]] field. *)
Definition Callable : Type := PyVal -> result PyVal.

(** [SmartcarSensorDescription]: the fields of [SensorEntityDescription] and
    [SmartcarEntityDescription] that [SENSOR_TYPES] sets, and the three the
    class adds.  A field left out of a constructor call is [None]. *)
Record SmartcarSensorDescription : Type := {
  key : EntityDescriptionKey;
  name : string;
  value_key_path : string;
  value_cast : option Callable;
  icon : option string;
  device_class : option SensorDeviceClass.t;
  state_class : option SensorStateClass.t;
  suggested_display_precision : option Z;
  native_unit_of_measurement : option string;
  imperial_unit_of_measurement : option string;
  to_native_conversion : option Callable;
  from_native_conversion : option Callable
}.

Definition BATTERY_CAPACITY_description : SmartcarSensorDescription := {|
  key := BATTERY_CAPACITY;
  name := "Battery Capacity";
  value_key_path := "battery_nominal_capacity.capacity.nominal";
  value_cast := None;
  icon := None;
  device_class := Some SensorDeviceClass.ENERGY_STORAGE;
  state_class := Some SensorStateClass.MEASUREMENT;
  suggested_display_precision := None;
  native_unit_of_measurement := Some UnitOfEnergy.KILO_WATT_HOUR;
  imperial_unit_of_measurement := None;
  to_native_conversion := None;
  from_native_conversion := None
|}.

Definition BATTERY_LEVEL_description : SmartcarSensorDescription := {|
  key := BATTERY_LEVEL;
  name := "Battery";
  value_key_path := "battery.percentRemaining";
  value_cast := Some fraction_to_percent;
  icon := None;
  device_class := Some SensorDeviceClass.BATTERY;
  state_class := Some SensorStateClass.MEASUREMENT;
  suggested_display_precision := None;
  native_unit_of_measurement := Some PERCENTAGE;
  imperial_unit_of_measurement := None;
  to_native_conversion := None;
  from_native_conversion := None
|}.

Definition CHARGING_STATE_description : SmartcarSensorDescription := {|
  key := CHARGING_STATE;
  name := "Charging Status";
  value_key_path := "charge.state";
  value_cast := None;
  icon := Some "mdi:ev-station";
  device_class := None;
  state_class := None;
  suggested_display_precision := None;
  native_unit_of_measurement := None;
  imperial_unit_of_measurement := None;
  to_native_conversion := None;
  from_native_conversion := None
|}.

Definition ENGINE_OIL_description : SmartcarSensorDescription := {|
  key := ENGINE_OIL;
  name := "Engine Oil Life";
  value_key_path := "engine_oil.lifeRemaining";
  value_cast := None;
  icon := Some "mdi:oil-level";
  device_class := None;
  state_class := Some SensorStateClass.MEASUREMENT;
  suggested_display_precision := None;
  native_unit_of_measurement := Some PERCENTAGE;
  imperial_unit_of_measurement := None;
  to_native_conversion := None;
  from_native_conversion := None
|}.

Definition FUEL_description : SmartcarSensorDescription := {|
  key := FUEL;
  name := "Fuel";
  value_key_path := "fuel.amountRemaining";
  value_cast := None;
  icon := Some "mdi:gas-station";
  device_class := None;
  state_class := Some SensorStateClass.MEASUREMENT;
  suggested_display_precision := None;
  native_unit_of_measurement := Some UnitOfVolume.LITERS;
  imperial_unit_of_measurement := Some UnitOfVolume.GALLONS;
  to_native_conversion := Some (fun v =>
    convert DistanceConverter v UnitOfVolume.GALLONS UnitOfVolume.LITERS);
  from_native_conversion := Some (fun v =>
    convert DistanceConverter v UnitOfVolume.LITERS UnitOfVolume.GALLONS)
|}.

Definition FUEL_PERCENT_description : SmartcarSensorDescription := {|
  key := FUEL_PERCENT;
  name := "Fuel Percent";
  value_key_path := "fuel.percentRemaining";
  value_cast := Some fraction_to_percent;
  icon := Some "mdi:gas-station";
  device_class := None;
  state_class := Some SensorStateClass.MEASUREMENT;
  suggested_display_precision := None;
  native_unit_of_measurement := Some PERCENTAGE;
  imperial_unit_of_measurement := None;
  to_native_conversion := None;
  from_native_conversion := None
|}.

(** The three distance descriptors differ in key, name, path, icon and state
    class only. *)
Definition distance_description (k : EntityDescriptionKey) (n path : string)
    (ic : option string) (sc : SensorStateClass.t)
  : SmartcarSensorDescription := {|
  key := k;
  name := n;
  value_key_path := path;
  value_cast := None;
  icon := ic;
  device_class := Some SensorDeviceClass.DISTANCE;
  state_class := Some sc;
  suggested_display_precision := None;
  native_unit_of_measurement := Some UnitOfLength.KILOMETERS;
  imperial_unit_of_measurement := Some UnitOfLength.MILES;
  to_native_conversion := Some (fun v =>
    convert DistanceConverter v UnitOfLength.MILES UnitOfLength.KILOMETERS);
  from_native_conversion := Some (fun v =>
    convert DistanceConverter v UnitOfLength.KILOMETERS UnitOfLength.MILES)
|}.

Definition FUEL_RANGE_description : SmartcarSensorDescription :=
  distance_description FUEL_RANGE "Fuel Range" "fuel.range"
    (Some "mdi:map-marker-distance") SensorStateClass.MEASUREMENT.

Definition ODOMETER_description : SmartcarSensorDescription :=
  distance_description ODOMETER "Odometer" "odometer.distance"
    None SensorStateClass.TOTAL_INCREASING.

Definition RANGE_description : SmartcarSensorDescription :=
  distance_description RANGE "Range" "battery.range"
    (Some "mdi:map-marker-distance") SensorStateClass.MEASUREMENT.

(** The four tire descriptors differ in key, name and path only. *)
Definition tire_pressure_description (k : EntityDescriptionKey)
    (n path : string) : SmartcarSensorDescription := {|
  key := k;
  name := n;
  value_key_path := path;
  value_cast := None;
  icon := None;
  device_class := Some SensorDeviceClass.PRESSURE;
  state_class := Some SensorStateClass.MEASUREMENT;
  suggested_display_precision := Some 1;
  native_unit_of_measurement := Some UnitOfPressure.KPA;
  imperial_unit_of_measurement := Some UnitOfPressure.PSI;
  to_native_conversion := Some (fun v =>
    convert PressureConverter v UnitOfPressure.PSI UnitOfPressure.KPA);
  from_native_conversion := Some (fun v =>
    convert PressureConverter v UnitOfPressure.KPA UnitOfPressure.PSI)
|}.

Definition TIRE_PRESSURE_BACK_LEFT_description : SmartcarSensorDescription :=
  tire_pressure_description TIRE_PRESSURE_BACK_LEFT
    "Tire Pressure Back Left" "tires_pressure.backLeft".

Definition TIRE_PRESSURE_BACK_RIGHT_description : SmartcarSensorDescription :=
  tire_pressure_description TIRE_PRESSURE_BACK_RIGHT
    "Tire Pressure Back Right" "tires_pressure.backRight".

Definition TIRE_PRESSURE_FRONT_LEFT_description : SmartcarSensorDescription :=
  tire_pressure_description TIRE_PRESSURE_FRONT_LEFT
    "Tire Pressure Front Left" "tires_pressure.frontLeft".

Definition TIRE_PRESSURE_FRONT_RIGHT_description : SmartcarSensorDescription :=
  tire_pressure_description TIRE_PRESSURE_FRONT_RIGHT
    "Tire Pressure Front Right" "tires_pressure.frontRight".

Definition SENSOR_TYPES : list SmartcarSensorDescription :=
  [ BATTERY_CAPACITY_description;
    BATTERY_LEVEL_description;
    CHARGING_STATE_description;
    ENGINE_OIL_description;
    FUEL_description;
    FUEL_PERCENT_description;
    FUEL_RANGE_description;
    ODOMETER_description;
    RANGE_description;
    TIRE_PRESSURE_BACK_LEFT_description;
    TIRE_PRESSURE_BACK_RIGHT_description;
    TIRE_PRESSURE_FRONT_LEFT_description;
    TIRE_PRESSURE_FRONT_RIGHT_description ].

(** ** The sensor entity *)

(** What the platform reads of a [SmartcarVehicleCoordinator]:
    [config_entry.data.get(CONF_USE_IMPERIAL)] (the entry, when there is one)
    and the capability check [is_scope_enabled(key, verbose=True)]. *)
Record SmartcarVehicleCoordinator : Type := {
  vin : string;
  config_use_imperial : option PyVal;
  is_scope_enabled : EntityDescriptionKey -> bool
}.

Record SmartcarSensor : Type := {
  coordinator : SmartcarVehicleCoordinator;
  entity_description : SmartcarSensorDescription;
  _use_imperial : PyVal;
  _attr_native_unit_of_measurement : option string
}.

(** [bool(u)] for a [str | None] field. *)
Definition str_truthy (u : option string) : bool :=
  match u with
  | None => false
  | Some s => negb (String.eqb s "")
  end.

(** [bool(f)] for a [Callable | None] field: a function is truthy. *)
Definition callable_truthy (f : option Callable) : bool :=
  match f with
  | None => false
  | Some _ => true
  end.

(** [f(v)] for a [Callable | None] field. *)
Definition call (f : option Callable) (v : PyVal) : result PyVal :=
  match f with
  | None => Raise TypeError
  | Some g => g v
  end.

(** [SmartcarSensor.__init__]. *)
Definition SmartcarSensor_init (coordinator : SmartcarVehicleCoordinator)
    (description : SmartcarSensorDescription) : SmartcarSensor :=
  let use_imperial :=
    default (PyBool false) (config_use_imperial coordinator) in
  {| coordinator := coordinator;
     entity_description := description;
     _use_imperial := use_imperial;
     _attr_native_unit_of_measurement :=
       if truthy use_imperial
          && str_truthy (imperial_unit_of_measurement description)
       then imperial_unit_of_measurement description
       else native_unit_of_measurement description |}.

Definition is_None (v : PyVal) : bool :=
  match v with PyNone => true | _ => false end.

Section extract_value.

(** [SmartcarEntity._extract_raw_value], inherited from [entity.py]: the
    value cached for the entity, or an exception. *)
Variable _extract_raw_value : SmartcarSensor -> result PyVal.

(** [SmartcarSensor._extract_value]. *)
Definition _extract_value (self : SmartcarSensor) : result PyVal :=
  value ← _extract_raw_value self;
  if is_None value then Ok PyNone
  else if truthy (_use_imperial self)
          && callable_truthy
               (from_native_conversion (entity_description self))
  then call (from_native_conversion (entity_description self)) value
  else if negb (truthy (_use_imperial self))
          && callable_truthy
               (to_native_conversion (entity_description self))
  then call (to_native_conversion (entity_description self)) value
  else Ok value.

(** [SmartcarSensor.native_value]. *)
Definition native_value (self : SmartcarSensor) : result PyVal :=
  _extract_value self.

End extract_value.

(** [async_setup_entry]: the list handed to [async_add_entities], for the
    coordinators of [entry.runtime_data.coordinators] in insertion order. *)
Definition async_setup_entry
    (coordinators : list (string * SmartcarVehicleCoordinator))
  : list SmartcarSensor :=
  coordinator ← coordinators.*2;
  description ← SENSOR_TYPES;
  if is_scope_enabled coordinator (key description)
  then [SmartcarSensor_init coordinator description]
  else [].

(** ** Entry-data helpers ([util.py])

    A [str] is a Rocq [string]; the keys are vehicle ids, ASCII text, on
    which Python orders strings by character code and [str.lower] changes
    the letters [A]-[Z] only. *)

(** A vehicle record of [data["vehicles"]]. *)
Record Vehicle : Type := {
  vehicle_vin : string
}.

(** The entry data: [data["vehicles"]] is a dict from vehicle id to vehicle
    record, kept as the list of its items in insertion order. *)
Record EntryData : Type := {
  vehicles : list (string * Vehicle)
}.

(** [d.keys()] and [d.values()] of a dict. *)
Definition keys {V : Type} (d : list (string * V)) : list string := d.*1.
Definition values {V : Type} (d : list (string * V)) : list V := d.*2.

(** A dict holds a key once. *)
Definition well_formed (data : EntryData) : Prop := NoDup (keys (vehicles data)).

(** [sorted(l)] for a list of [str]: ascending in the order of the
    characters' codes. *)
Definition sorted (l : list string) : list string := merge_sort String.le l.

(** [sep.join(l)]. *)
Definition join (sep : string) (l : list string) : string := String.concat sep l.

(** [c.lower()] for one character: [A]-[Z] to [a]-[z]. *)
Definition lower_ascii (c : ascii) : ascii :=
  let n := N_of_ascii c in
  if ((65 <=? n) && (n <=? 90))%N then ascii_of_N (n + 32) else c.

(** [s.lower()]. *)
Fixpoint lower (s : string) : string :=
  match s with
  | EmptyString => EmptyString
  | String c s' => String (lower_ascii c) (lower s')
  end.

Definition unique_id_from_entry_data (data : EntryData) : string :=
  lower (join " " (sorted (keys (vehicles data)))).

Definition vins_from_entry_data (data : EntryData) : string :=
  join " " (sorted (map vehicle_vin (values (vehicles data)))).

(** ** Sample inputs and derived notions used in the statements *)

(** Two coordinators, one with the imperial preference set. *)
Definition imperial_coordinator : SmartcarVehicleCoordinator := {|
  vin := "5YJSA1E26HF000001";
  config_use_imperial := Some (PyBool true);
  is_scope_enabled := fun _ => true
|}.

Definition metric_coordinator : SmartcarVehicleCoordinator := {|
  vin := "5YJSA1E26HF000002";
  config_use_imperial := None;
  is_scope_enabled := fun k =>
    bool_decide (k = ODOMETER) || bool_decide (k = CHARGING_STATE)
|}.

(** A cache that holds [v] for every entity. *)
Definition cached (v : PyVal) : SmartcarSensor -> result PyVal :=
  fun _ => Ok v.

(** Two dicts whose keys are the same up to character case, as sets. *)
Definition same_keys_up_to_case (data1 data2 : EntryData) : Prop :=
  forall k, k ∈ map lower (keys (vehicles data1))
            <-> k ∈ map lower (keys (vehicles data2)).

Definition entry_aB : EntryData :=
  {| vehicles := [("a", {| vehicle_vin := "V1" |});
                  ("B", {| vehicle_vin := "V2" |})] |}.

Definition entry_Ab : EntryData :=
  {| vehicles := [("A", {| vehicle_vin := "V1" |});
                  ("b", {| vehicle_vin := "V2" |})] |}.

(** The records of [entry_aB] inserted in the other order, and a dict and its
    copy with the key in upper case. *)
Definition entry_Ba : EntryData :=
  {| vehicles := [("B", {| vehicle_vin := "V2" |});
                  ("a", {| vehicle_vin := "V1" |})] |}.

Definition entry_lower : EntryData :=
  {| vehicles := [("id-7f", {| vehicle_vin := "V1" |})] |}.

Definition entry_upper : EntryData :=
  {| vehicles := [("ID-7F", {| vehicle_vin := "V1" |})] |}.

(** [|y - x| <= tol * |x|]. *)
Definition close_to (tol x : float) (r : result PyVal) : bool :=
  match r with
  | Ok (PyFloat y) => (abs (y - x) <=? tol * abs x)%float
  | _ => false
  end.

(** Both compositions of a descriptor's conversions, at the value [x]. *)
Definition round_trips (tol x : float) (d : SmartcarSensorDescription)
  : bool :=
  close_to tol x
    (y ← call (to_native_conversion d) (PyFloat x);
     call (from_native_conversion d) y)
  && close_to tol x
       (y ← call (from_native_conversion d) (PyFloat x);
        call (to_native_conversion d) y).

(** ** The entry-data helpers on the data as Python holds it

    The entry data is JSON: [data] is a dict, [data["vehicles"]] a dict from
    vehicle id to vehicle record, and a record a dict with the entry "vin".
    The functions below are the two helpers of [util.py] on such a value,
    with the exceptions of the lookups: [d[k]] raises [KeyError] on a dict
    without the key [k] and [TypeError] on a value that is no dict; [.keys()]
    and [.values()] raise [AttributeError] on a value that is no dict;
    [sorted] or [join] raise [TypeError] when an item is no [str]. *)

Module untyped.

#[warnings="-register-all"]
Inductive Json : Type :=
  | JNull
  | JBool (b : bool)
  | JInt (z : Z)
  | JFloat (f : float)
  | JStr (s : string)
  | JList (items : list Json)
  | JDict (items : list (string * Json)).

Inductive Exc : Type :=
  | KeyError (k : string)
  | TypeError
  | AttributeError.

Inductive res (A : Type) : Type :=
  | Return (a : A)
  | Throw (e : Exc).

Arguments Return {A} a.
Arguments Throw {A} e.

#[global] Instance res_bind : MBind res := fun A B k r =>
  match r with
  | Return a => k a
  | Throw e => Throw e
  end.

Fixpoint dict_get (items : list (string * Json)) (k : string) : option Json :=
  match items with
  | [] => None
  | (k', v) :: rest => if String.eqb k' k then Some v else dict_get rest k
  end.

(** [d[k]]. *)
Definition getitem (d : Json) (k : string) : res Json :=
  match d with
  | JDict items =>
      match dict_get items k with
      | Some v => Return v
      | None => Throw (KeyError k)
      end
  | _ => Throw TypeError
  end.

(** [d.keys()] and [d.values()]. *)
Definition dict_keys (d : Json) : res (list string) :=
  match d with
  | JDict items => Return (keys items)
  | _ => Throw AttributeError
  end.

Definition dict_values (d : Json) : res (list Json) :=
  match d with
  | JDict items => Return (values items)
  | _ => Throw AttributeError
  end.

(** A list comprehension [[f(x) for x in l]]: the first exception ends it. *)
Fixpoint comprehension {A B : Type} (f : A -> res B) (l : list A)
  : res (list B) :=
  match l with
  | [] => Return []
  | x :: l' => y ← f x; ys ← comprehension f l'; Return (y :: ys)
  end.

(** The items of a list that [sorted] and [" ".join] accept: all [str]. *)
Definition as_str (v : Json) : res string :=
  match v with
  | JStr s => Return s
  | _ => Throw TypeError
  end.

Definition unique_id_from_entry_data (data : Json) : res string :=
  vehicles_ ← getitem data "vehicles";
  ks ← dict_keys vehicles_;
  Return (lower (join " " (sorted ks))).

Definition vins_from_entry_data (data : Json) : res string :=
  vehicles_ ← getitem data "vehicles";
  records ← dict_values vehicles_;
  vins ← comprehension (fun vehicle => getitem vehicle "vin") records;
  strs ← comprehension as_str vins;
  Return (join " " (sorted strs)).

(** The record and the entry data an [EntryData] stands for. *)
Definition json_of_vehicle (v : Vehicle) : Json :=
  JDict [("vin", JStr (vehicle_vin v))].

Definition json_of_entry_data (data : EntryData) : Json :=
  JDict [("vehicles",
          JDict (map (fun kv => (kv.1, json_of_vehicle kv.2))
                   (vehicles data)))].

(** [data] has the dict [items] under "vehicles", and every record of it is
    a dict whose "vin" is the text that [ed] has for that vehicle. *)
Definition stands_for (data : Json) (ed : EntryData) : Prop :=
  exists items,
    getitem data "vehicles" = Return (JDict items)
    /\ Forall2 (fun kj kv =>
                  kj.1 = kv.1
                  /\ getitem kj.2 "vin" = Return (JStr (vehicle_vin kv.2)))
         items (vehicles ed).

End untyped.

(** Entry data as Python holds it: two vehicles; the same with the VIN of
    the second record missing; and data without "vehicles". *)
Definition json_two : untyped.Json :=
  untyped.JDict
    [("access_token", untyped.JStr "t0");
     ("vehicles",
      untyped.JDict
        [("36ab27d0",
          untyped.JDict [("vin", untyped.JStr "5YJSA1E26HF000002");
                         ("make", untyped.JStr "TESLA")]);
         ("1f4c8a2e",
          untyped.JDict [("vin", untyped.JStr "5YJSA1E26HF000001")])])].

Definition json_no_vin : untyped.Json :=
  untyped.JDict
    [("vehicles",
      untyped.JDict
        [("36ab27d0", untyped.JDict [("vin", untyped.JStr "5YJSA1E26HF000002")]);
         ("1f4c8a2e", untyped.JDict [("make", untyped.JStr "TESLA")])])].

Definition json_no_vehicles : untyped.Json :=
  untyped.JDict [("access_token", untyped.JStr "t0")].

(** A string without a blank, and a key as vehicle ids are: not empty, in
    lower case and without a blank. *)
Fixpoint space_free (s : string) : bool :=
  match s with
  | EmptyString => true
  | String c s' => negb (Ascii.eqb c " ") && space_free s'
  end.

Definition plain_key (k : string) : Prop :=
  k <> EmptyString /\ lower k = k /\ space_free k = true.

Definition entry_two : EntryData :=
  {| vehicles := [("36ab27d0", {| vehicle_vin := "5YJSA1E26HF000002" |});
                  ("1f4c8a2e", {| vehicle_vin := "5YJSA1E26HF000001" |})] |}.

Definition entry_two_reordered : EntryData :=
  {| vehicles := [("1f4c8a2e", {| vehicle_vin := "5YJSA1E26HF000001" |});
                  ("36ab27d0", {| vehicle_vin := "5YJSA1E26HF000002" |})] |}.

(** * Properties *)

Ltac each_sensor_type H :=
  unfold SENSOR_TYPES in H; rewrite !elem_of_cons, elem_of_nil in H;
  repeat (destruct H as [->|H]); [..|contradiction].


(** ** Worked values *)

Example fraction_to_percent_tie_to_even :
  fraction_to_percent (PyFloat 0.125) = Ok (PyInt 12)
  /\ fraction_to_percent (PyFloat 0.835) = Ok (PyInt 84).
Proof. split; vm_compute; reflexivity. Qed.

Example fraction_to_percent_int_and_str :
  fraction_to_percent (PyInt 1) = Ok (PyInt 100)
  /\ fraction_to_percent (PyStr "x") = Raise TypeError.
Proof. split; vm_compute; reflexivity. Qed.

Example unique_id_example :
  unique_id_from_entry_data
    {| vehicles := [("B2", {| vehicle_vin := "V1" |});
                    ("a1", {| vehicle_vin := "V2" |});
                    ("A3", {| vehicle_vin := "V0" |})] |}
  = "a3 b2 a1".
Proof. vm_compute. reflexivity. Qed.

(** Two floats with different representations are different values. *)
Lemma PyFloat_neq (x y : float) :
  Prim2SF x <> Prim2SF y -> Ok (PyFloat x) <> Ok (PyFloat y).
Proof. intros Hne Heq. apply Hne. congruence. Qed.

(** ** [_extract_value] *)

Section extract_value_facts.

Variable raw : SmartcarSensor -> result PyVal.

(** The body of [_extract_value] past the [None] test. *)
Lemma extract_value_present (self : SmartcarSensor) (v : PyVal) :
  raw self = Ok v -> v <> PyNone ->
  _extract_value raw self =
    if truthy (_use_imperial self)
       && callable_truthy (from_native_conversion (entity_description self))
    then call (from_native_conversion (entity_description self)) v
    else if negb (truthy (_use_imperial self))
            && callable_truthy
                 (to_native_conversion (entity_description self))
    then call (to_native_conversion (entity_description self)) v
    else Ok v.
Proof.
  intros Hraw Hv. unfold _extract_value. rewrite Hraw. cbn.
  destruct v; cbn; first [contradiction | reflexivity].
Qed.

Lemma extract_value_raises (self : SmartcarSensor) (e : PyExc) :
  raw self = Raise e -> _extract_value raw self = Raise e.
Proof. intros Hraw. unfold _extract_value. rewrite Hraw. reflexivity. Qed.

End extract_value_facts.

(** C1: for a cached value that is not [None], [_extract_value] applies
    [from_native_conversion] when the imperial preference is true and that
    conversion is defined; otherwise it applies [to_native_conversion] when
    the preference is false and that conversion is defined; in every other
    case it returns the cached value unchanged. *)
Theorem extract_value_conversion_cases
    (raw : SmartcarSensor -> result PyVal) (self : SmartcarSensor)
    (v : PyVal) :
  raw self = Ok v -> v <> PyNone ->
  (forall conv, truthy (_use_imperial self) = true ->
     from_native_conversion (entity_description self) = Some conv ->
     _extract_value raw self = conv v)
  /\ (forall conv, truthy (_use_imperial self) = false ->
        to_native_conversion (entity_description self) = Some conv ->
        _extract_value raw self = conv v)
  /\ ((truthy (_use_imperial self) = true ->
        from_native_conversion (entity_description self) = None) ->
      (truthy (_use_imperial self) = false ->
        to_native_conversion (entity_description self) = None) ->
      _extract_value raw self = Ok v).
Proof.
  intros Hraw Hv. rewrite (extract_value_present raw self v Hraw Hv).
  split; [|split].
  - intros conv -> ->. reflexivity.
  - intros conv -> ->. reflexivity.
  - intros Hfrom Hto. destruct (truthy (_use_imperial self)); cbn.
    + rewrite Hfrom by reflexivity. reflexivity.
    + rewrite Hto by reflexivity. reflexivity.
Qed.

Lemma extract_value_conversion_cases_witness :
  _extract_value (cached (PyFloat 100))
    (SmartcarSensor_init imperial_coordinator ODOMETER_description)
  = convert DistanceConverter (PyFloat 100) "km" "mi"
  /\ _extract_value (cached (PyFloat 100))
       (SmartcarSensor_init metric_coordinator ODOMETER_description)
     = convert DistanceConverter (PyFloat 100) "mi" "km"
  /\ _extract_value (cached (PyStr "CHARGING"))
       (SmartcarSensor_init imperial_coordinator CHARGING_STATE_description)
     = Ok (PyStr "CHARGING").
Proof.
  split; [|split].
  - refine (proj1 (extract_value_conversion_cases (cached (PyFloat 100))
      (SmartcarSensor_init imperial_coordinator ODOMETER_description)
      (PyFloat 100) eq_refl _) _ eq_refl eq_refl).
    discriminate.
  - refine (proj1 (proj2 (extract_value_conversion_cases
      (cached (PyFloat 100))
      (SmartcarSensor_init metric_coordinator ODOMETER_description)
      (PyFloat 100) eq_refl _)) _ eq_refl eq_refl).
    discriminate.
  - refine (proj2 (proj2 (extract_value_conversion_cases
      (cached (PyStr "CHARGING"))
      (SmartcarSensor_init imperial_coordinator CHARGING_STATE_description)
      (PyStr "CHARGING") eq_refl _)) _ _).
    + discriminate.
    + intros _. reflexivity.
    + intros Himp. discriminate Himp.
Defined.

(** C2, as the claim words it, fails: with the imperial preference on and 100.0
    cached for the odometer, [_extract_value] does not return what
    [to_native_conversion] (miles to kilometers) gives, and with the preference
    off it does not return what [from_native_conversion] (kilometers to miles)
    gives. *)
Lemma extract_value_pairing_not_inverted :
  _extract_value (cached (PyFloat 100))
    (SmartcarSensor_init imperial_coordinator ODOMETER_description)
  <> call (to_native_conversion ODOMETER_description) (PyFloat 100)
  /\ _extract_value (cached (PyFloat 100))
       (SmartcarSensor_init metric_coordinator ODOMETER_description)
     <> call (from_native_conversion ODOMETER_description) (PyFloat 100).
Proof.
  split; vm_compute; apply PyFloat_neq; vm_compute; discriminate.
Qed.

(** C2, amended: for a cached value that is not [None], when imperial display
    is requested and the descriptor defines [from_native_conversion] (native to
    imperial), that conversion is applied; when metric display is requested
    and the descriptor defines [to_native_conversion] (imperial to native),
    that conversion is applied. *)
Theorem extract_value_pairing
    (raw : SmartcarSensor -> result PyVal) (self : SmartcarSensor)
    (v : PyVal) :
  raw self = Ok v -> v <> PyNone ->
  (forall from_native, truthy (_use_imperial self) = true ->
     from_native_conversion (entity_description self) = Some from_native ->
     _extract_value raw self = from_native v)
  /\ (forall to_native, truthy (_use_imperial self) = false ->
        to_native_conversion (entity_description self) = Some to_native ->
        _extract_value raw self = to_native v).
Proof.
  intros Hraw Hv. unfold _extract_value. rewrite Hraw. cbn.
  assert (is_None v = false) as -> by (destruct v; [contradiction | done..]).
  split; intros conv -> ->; reflexivity.
Qed.

Lemma extract_value_pairing_witness :
  _extract_value (cached (PyFloat 100))
    (SmartcarSensor_init imperial_coordinator ODOMETER_description)
  = convert DistanceConverter (PyFloat 100) "km" "mi"
  /\ _extract_value (cached (PyFloat 100))
       (SmartcarSensor_init metric_coordinator ODOMETER_description)
     = convert DistanceConverter (PyFloat 100) "mi" "km".
Proof.
  split.
  - refine (proj1 (extract_value_pairing (cached (PyFloat 100))
      (SmartcarSensor_init imperial_coordinator ODOMETER_description)
      (PyFloat 100) eq_refl _) _ eq_refl eq_refl).
    discriminate.
  - refine (proj2 (extract_value_pairing (cached (PyFloat 100))
      (SmartcarSensor_init metric_coordinator ODOMETER_description)
      (PyFloat 100) eq_refl _) _ eq_refl eq_refl).
    discriminate.
Defined.

(** When the raw extracted value is [None], [_extract_value] returns [None];
    it does not raise. *)
Theorem extract_value_absent
    (raw : SmartcarSensor -> result PyVal) (self : SmartcarSensor) :
  raw self = Ok PyNone -> _extract_value raw self = Ok PyNone.
Proof.
  intros Hraw. unfold _extract_value. rewrite Hraw. reflexivity.
Qed.

Lemma extract_value_absent_witness :
  _extract_value (cached PyNone)
    (SmartcarSensor_init imperial_coordinator FUEL_description)
  = Ok PyNone.
Proof.
  apply (extract_value_absent (cached PyNone)
    (SmartcarSensor_init imperial_coordinator FUEL_description)).
  reflexivity.
Defined.

(** C3: the failure conditions of [_extract_value].  An absent raw value
    ([None]) gives [None] and no error, for every entity.  A number that is
    cached (a float, or an int that a float can hold) gives a value and no
    error for every descriptor of [SENSOR_TYPES] other than fuel.  At the
    fuel descriptor a cached amount raises, under either preference: there
    absence is not the only failure condition. *)
Theorem extract_value_failure_conditions :
  (forall (raw : SmartcarSensor -> result PyVal) (self : SmartcarSensor),
     raw self = Ok PyNone -> _extract_value raw self = Ok PyNone)
  /\ (forall (raw : SmartcarSensor -> result PyVal)
         (c : SmartcarVehicleCoordinator) (d : SmartcarSensorDescription)
         (v : PyVal),
        d ∈ SENSOR_TYPES -> key d <> FUEL ->
        ((exists x, v = PyFloat x)
         \/ (exists z x, v = PyInt z /\ float_of_Z z = Ok x)) ->
        raw (SmartcarSensor_init c d) = Ok v ->
        exists r, _extract_value raw (SmartcarSensor_init c d) = Ok r)
  /\ _extract_value (cached (PyFloat 41.5))
       (SmartcarSensor_init imperial_coordinator FUEL_description)
     = Raise (HomeAssistantError "L" "distance")
  /\ _extract_value (cached (PyFloat 41.5))
       (SmartcarSensor_init metric_coordinator FUEL_description)
     = Raise (HomeAssistantError "gal" "distance").
Proof.
  split; [|split; [|split]].
  - intros raw self Hraw. unfold _extract_value. rewrite Hraw. reflexivity.
  - intros raw c d v Hd Hkey Hnumber Hraw.
    assert (v <> PyNone) as Hv
      by (destruct Hnumber as [[x ->]|(z & x & -> & _)]; discriminate).
    rewrite (extract_value_present raw _ v Hraw Hv).
    cbn [SmartcarSensor_init entity_description _use_imperial].
    destruct Hnumber as [[x ->]|(z & x & -> & Hz)];
      each_sensor_type Hd; try (contradiction Hkey; reflexivity);
      destruct (truthy _); cbn; rewrite ?Hz; cbn; eexists; reflexivity.
  - vm_compute. reflexivity.
  - vm_compute. reflexivity.
Qed.

(** C7: a descriptor with neither conversion defined passes the cached value
    through unchanged, whatever the imperial preference of the entity is. *)
Theorem extract_value_no_conversion
    (raw : SmartcarSensor -> result PyVal) (self : SmartcarSensor)
    (v : PyVal) :
  to_native_conversion (entity_description self) = None ->
  from_native_conversion (entity_description self) = None ->
  raw self = Ok v ->
  _extract_value raw self = Ok v.
Proof.
  intros Hto Hfrom Hraw. unfold _extract_value.
  rewrite Hraw, Hto, Hfrom. cbn.
  rewrite !andb_false_r. destruct v; reflexivity.
Qed.

Lemma extract_value_no_conversion_witness :
  _extract_value (cached (PyStr "CHARGING"))
    (SmartcarSensor_init imperial_coordinator CHARGING_STATE_description)
  = Ok (PyStr "CHARGING")
  /\ _extract_value (cached (PyStr "CHARGING"))
       (SmartcarSensor_init metric_coordinator CHARGING_STATE_description)
     = Ok (PyStr "CHARGING").
Proof.
  split.
  - apply (extract_value_no_conversion (cached (PyStr "CHARGING"))
      (SmartcarSensor_init imperial_coordinator CHARGING_STATE_description));
      reflexivity.
  - apply (extract_value_no_conversion (cached (PyStr "CHARGING"))
      (SmartcarSensor_init metric_coordinator CHARGING_STATE_description));
      reflexivity.
Defined.

(** ** [SmartcarSensor.__init__] and [async_setup_entry] *)

(** No descriptor of [SENSOR_TYPES] has an empty imperial unit: there, having
    an imperial unit and having a truthy one are the same. *)
Lemma SENSOR_TYPES_imperial_unit (d : SmartcarSensorDescription) :
  d ∈ SENSOR_TYPES ->
  str_truthy (imperial_unit_of_measurement d)
  = bool_decide (is_Some (imperial_unit_of_measurement d)).
Proof.
  unfold SENSOR_TYPES. rewrite !elem_of_cons, elem_of_nil.
  intros H. repeat (destruct H as [->|H]; [vm_compute; reflexivity|]).
  contradiction.
Qed.

(** C8: the unit an entity reports is the descriptor's imperial unit when the
    imperial preference is true and the descriptor defines an imperial unit,
    and its native unit in every other case; it is set by [__init__] from the
    coordinator's preference and the descriptor alone. *)
Theorem init_unit_of_measurement
    (c : SmartcarVehicleCoordinator) (d : SmartcarSensorDescription) :
  let self := SmartcarSensor_init c d in
  _use_imperial self = default (PyBool false) (config_use_imperial c)
  /\ _attr_native_unit_of_measurement self
     = (if truthy (_use_imperial self)
           && str_truthy (imperial_unit_of_measurement d)
        then imperial_unit_of_measurement d
        else native_unit_of_measurement d)
  /\ (d ∈ SENSOR_TYPES ->
      _attr_native_unit_of_measurement self
      = if truthy (_use_imperial self)
           && bool_decide (is_Some (imperial_unit_of_measurement d))
        then imperial_unit_of_measurement d
        else native_unit_of_measurement d).
Proof.
  cbn. split; [reflexivity|]. split; [reflexivity|].
  intros Hd. rewrite (SENSOR_TYPES_imperial_unit d Hd). reflexivity.
Qed.

Lemma init_unit_of_measurement_witness :
  _attr_native_unit_of_measurement
    (SmartcarSensor_init imperial_coordinator ODOMETER_description)
  = Some "mi"
  /\ _attr_native_unit_of_measurement
       (SmartcarSensor_init metric_coordinator ODOMETER_description)
     = Some "km"
  /\ _attr_native_unit_of_measurement
       (SmartcarSensor_init imperial_coordinator ENGINE_OIL_description)
     = Some "%".
Proof.
  split; [|split].
  - refine (eq_trans (proj2 (proj2
      (init_unit_of_measurement imperial_coordinator ODOMETER_description))
      _) eq_refl).
    unfold SENSOR_TYPES. repeat constructor.
  - refine (eq_trans (proj2 (proj2
      (init_unit_of_measurement metric_coordinator ODOMETER_description))
      _) eq_refl).
    unfold SENSOR_TYPES. repeat constructor.
  - refine (eq_trans (proj2 (proj2
      (init_unit_of_measurement imperial_coordinator ENGINE_OIL_description))
      _) eq_refl).
    unfold SENSOR_TYPES. repeat constructor.
Defined.

(** C9: the entities [async_setup_entry] adds are those built from a
    coordinator of the entry and a descriptor of [SENSOR_TYPES] whose key the
    coordinator's [is_scope_enabled] accepts, and no others. *)
Theorem async_setup_entry_entities
    (coordinators : list (string * SmartcarVehicleCoordinator))
    (entity : SmartcarSensor) :
  entity ∈ async_setup_entry coordinators <->
  exists c d,
    c ∈ values coordinators /\ d ∈ SENSOR_TYPES
    /\ is_scope_enabled c (key d) = true
    /\ entity = SmartcarSensor_init c d.
Proof.
  unfold async_setup_entry, values. rewrite list_elem_of_bind. split.
  - intros (c & Hentity & Hc). apply list_elem_of_bind in Hentity.
    destruct Hentity as (d & Hentity & Hd).
    destruct (is_scope_enabled c (key d)) eqn:Hscope.
    + apply list_elem_of_singleton in Hentity. eauto 10.
    + apply elem_of_nil in Hentity. contradiction.
  - intros (c & d & Hc & Hd & Hscope & ->). exists c. split; [|done].
    apply list_elem_of_bind. exists d. split; [|done].
    rewrite Hscope. apply list_elem_of_singleton. reflexivity.
Qed.

Lemma enabled_entities_length (c : SmartcarVehicleCoordinator)
    (ds : list SmartcarSensorDescription) :
  length (d ← ds;
          if is_scope_enabled c (key d) then [SmartcarSensor_init c d] else [])
  = length (filter (fun d => is_scope_enabled c (key d) = true) ds).
Proof.
  induction ds as [|d ds IH]; [reflexivity|].
  rewrite bind_cons, List.length_app, IH, filter_cons.
  destruct (is_scope_enabled c (key d)) eqn:Hscope.
  - rewrite decide_True by reflexivity. reflexivity.
  - rewrite decide_False by discriminate. reflexivity.
Qed.

(** The number of entities: one for each enabled descriptor of each
    coordinator. *)
Lemma async_setup_entry_length
    (coordinators : list (string * SmartcarVehicleCoordinator)) :
  length (async_setup_entry coordinators)
  = sum_list
      (map (fun c =>
              length (filter (fun d => is_scope_enabled c (key d) = true)
                        SENSOR_TYPES))
         (values coordinators)).
Proof.
  unfold async_setup_entry, values.
  induction (coordinators.*2) as [|c cs IH]; [reflexivity|].
  rewrite bind_cons, List.length_app, IH, enabled_entities_length.
  reflexivity.
Qed.

Example async_setup_entry_example :
  map (fun e => (vin (coordinator e), key (entity_description e)))
    (async_setup_entry [("v2", metric_coordinator)])
  = [("5YJSA1E26HF000002", CHARGING_STATE); ("5YJSA1E26HF000002", ODOMETER)].
Proof. vm_compute. reflexivity. Qed.

(** ** The descriptors' value transform and conversions *)

(** C6: the value transform of the battery-level and fuel-percent descriptors
    maps 0.42 to 42 and [None] to [None]. *)
Theorem value_cast_fraction_to_percent (d : SmartcarSensorDescription) :
  d ∈ SENSOR_TYPES ->
  key d = BATTERY_LEVEL \/ key d = FUEL_PERCENT ->
  exists cast,
    value_cast d = Some cast
    /\ cast (PyFloat 0.42) = Ok (PyInt 42)
    /\ cast PyNone = Ok PyNone.
Proof.
  intros Hd Hkey. each_sensor_type Hd;
    (destruct Hkey as [Hkey|Hkey]; try discriminate Hkey);
    (exists fraction_to_percent; split; [reflexivity|];
     split; vm_compute; reflexivity).
Qed.

Lemma value_cast_fraction_to_percent_witness :
  exists cast,
    value_cast BATTERY_LEVEL_description = Some cast
    /\ cast (PyFloat 0.42) = Ok (PyInt 42)
    /\ cast PyNone = Ok PyNone.
Proof.
  apply (value_cast_fraction_to_percent BATTERY_LEVEL_description).
  - unfold SENSOR_TYPES. repeat constructor.
  - left. reflexivity.
Defined.

(** C10: the value transform of the battery-level and fuel-percent descriptors
    returns a falsy input as it is ([None], 0 and 0.0 among them), and scales
    and rounds only an input that is truthy. *)
Theorem value_cast_falsy_unchanged (d : SmartcarSensorDescription) :
  d ∈ SENSOR_TYPES ->
  key d = BATTERY_LEVEL \/ key d = FUEL_PERCENT ->
  exists cast,
    value_cast d = Some cast
    /\ (forall v, truthy v = false -> cast v = Ok v)
    /\ cast PyNone = Ok PyNone
    /\ cast (PyInt 0) = Ok (PyInt 0)
    /\ cast (PyFloat 0) = Ok (PyFloat 0)
    /\ (forall v, truthy v = true ->
          cast v = (p ← py_mul_int v 100; py_round p)).
Proof.
  intros Hd Hkey. each_sensor_type Hd;
    (destruct Hkey as [Hkey|Hkey]; try discriminate Hkey);
    (exists fraction_to_percent; split; [reflexivity|];
     repeat split; try reflexivity;
     intros v Hv; unfold fraction_to_percent, py_and; rewrite Hv;
     reflexivity).
Qed.

Lemma value_cast_falsy_unchanged_witness :
  exists cast,
    value_cast FUEL_PERCENT_description = Some cast
    /\ (forall v, truthy v = false -> cast v = Ok v)
    /\ cast PyNone = Ok PyNone
    /\ cast (PyInt 0) = Ok (PyInt 0)
    /\ cast (PyFloat 0) = Ok (PyFloat 0)
    /\ (forall v, truthy v = true ->
          cast v = (p ← py_mul_int v 100; py_round p)).
Proof.
  apply (value_cast_falsy_unchanged FUEL_PERCENT_description).
  - unfold SENSOR_TYPES. repeat constructor.
  - right. reflexivity.
Defined.

(** The value transform is set on those two descriptors only. *)
Lemma value_cast_descriptors (d : SmartcarSensorDescription) :
  d ∈ SENSOR_TYPES ->
  (is_Some (value_cast d) <-> key d = BATTERY_LEVEL \/ key d = FUEL_PERCENT).
Proof.
  intros Hd. each_sensor_type Hd; cbn; split;
    solve [ intros [? [=]] | intros [[=]|[=]] | eauto ].
Qed.

(** [DistanceConverter] knows no unit of volume. *)
Lemma distance_converter_volume (v : PyVal) :
  convert DistanceConverter v UnitOfVolume.GALLONS UnitOfVolume.LITERS
  = Raise (HomeAssistantError "gal" "distance")
  /\ convert DistanceConverter v UnitOfVolume.LITERS UnitOfVolume.GALLONS
     = Raise (HomeAssistantError "L" "distance").
Proof. split; reflexivity. Qed.

(** C4 at the fuel descriptor: both conversions are defined, and each raises
    on every value, so neither composition returns the value it was given. *)
Theorem fuel_round_trip_raises (v : PyVal) :
  exists to_native from_native,
    to_native_conversion FUEL_description = Some to_native
    /\ from_native_conversion FUEL_description = Some from_native
    /\ (x ← to_native v; from_native x)
       = Raise (HomeAssistantError "gal" "distance")
    /\ (x ← from_native v; to_native x)
       = Raise (HomeAssistantError "L" "distance").
Proof.
  eexists _, _. split; [reflexivity|]. split; [reflexivity|].
  split; reflexivity.
Qed.

(** The fuel sensor therefore raises for every fuel amount that is cached,
    under either preference. *)
Lemma fuel_extract_value_raises
    (raw : SmartcarSensor -> result PyVal) (c : SmartcarVehicleCoordinator)
    (v : PyVal) :
  raw (SmartcarSensor_init c FUEL_description) = Ok v -> v <> PyNone ->
  exists e, _extract_value raw (SmartcarSensor_init c FUEL_description)
            = Raise e.
Proof.
  intros Hraw Hv. rewrite (extract_value_present raw _ v Hraw Hv). cbn.
  destruct (truthy _); cbn; eauto.
Qed.

(** C4 at the other descriptors with both conversions: at 100.0 and at 32.5
    the two compositions return the value within a relative error of 1e-12;
    at the fuel descriptor they do not. *)
Lemma round_trip_by_descriptor (d : SmartcarSensorDescription) :
  d ∈ SENSOR_TYPES ->
  is_Some (to_native_conversion d) ->
  is_Some (from_native_conversion d) ->
  round_trips 1e-12 100 d && round_trips 1e-12 32.5 d
  = negb (bool_decide (key d = FUEL)).
Proof.
  intros Hd Hto Hfrom. each_sensor_type Hd;
    first [ vm_compute; reflexivity | destruct Hto as [? [=]] ].
Qed.

(** ** [unique_id_from_entry_data] *)

Lemma sorted_Permutation (l1 l2 : list string) :
  l1 ≡ₚ l2 -> sorted l1 = sorted l2.
Proof.
  intros Hperm. unfold sorted.
  apply (Sorted_unique String.le); try apply Sorted_merge_sort; try apply _.
  rewrite !merge_sort_Permutation. exact Hperm.
Qed.

Lemma lower_append (s1 s2 : string) :
  lower (String.append s1 s2) = String.append (lower s1) (lower s2).
Proof.
  induction s1 as [|c s1 IH]; [reflexivity|].
  change (lower (String c (String.append s1 s2))
          = String (lower_ascii c) (String.append (lower s1) (lower s2))).
  cbn [lower]. rewrite IH. reflexivity.
Qed.

Lemma lower_join (sep : string) (l : list string) :
  lower (join sep l) = join (lower sep) (map lower l).
Proof.
  unfold join. induction l as [|s l IH]; [reflexivity|].
  destruct l as [|s' l]; [reflexivity|].
  cbn [String.concat map] in *. rewrite !lower_append, IH. reflexivity.
Qed.

Lemma lower_idempotent (s : string) : lower (lower s) = lower s.
Proof.
  induction s as [|c s IH]; cbn; [reflexivity|]. rewrite IH. f_equal.
  destruct c as [[] [] [] [] [] [] [] []]; vm_compute; reflexivity.
Qed.

(** C5: the identifier is meant to ignore the case of the keys, and the code
    puts the joined string in lower case, but it sorts the keys before that.
    The dicts with keys [a], [B] and with keys [A], [b] have the same keys up
    to case, and their identifiers are "b a" and "a b": not the same. *)
Lemma unique_id_case_sensitive_order :
  well_formed entry_aB /\ well_formed entry_Ab
  /\ same_keys_up_to_case entry_aB entry_Ab
  /\ unique_id_from_entry_data entry_aB = "b a"
  /\ unique_id_from_entry_data entry_Ab = "a b"
  /\ unique_id_from_entry_data entry_aB <> unique_id_from_entry_data entry_Ab.
Proof.
  split; [|split; [|split; [|split; [|split]]]].
  - unfold well_formed. apply (bool_decide_unpack _). vm_compute. exact I.
  - unfold well_formed. apply (bool_decide_unpack _). vm_compute. exact I.
  - intros k.
    assert (map lower (keys (vehicles entry_aB))
            = map lower (keys (vehicles entry_Ab))) as ->
      by (vm_compute; reflexivity).
    reflexivity.
  - vm_compute. reflexivity.
  - vm_compute. reflexivity.
  - vm_compute. discriminate.
Qed.

(** What does hold of the identifier: it does not depend on the insertion
    order of the vehicle records (two dicts with the same keys give the same
    string); it is the same for two dicts whose sorted key lists agree,
    position by position, up to character case; and it holds no upper-case
    letter. *)
Theorem unique_id_stable (data1 data2 : EntryData) :
  (well_formed data1 -> well_formed data2 ->
   (forall k, k ∈ keys (vehicles data1) <-> k ∈ keys (vehicles data2)) ->
   unique_id_from_entry_data data1 = unique_id_from_entry_data data2)
  /\ (map lower (sorted (keys (vehicles data1)))
      = map lower (sorted (keys (vehicles data2))) ->
      unique_id_from_entry_data data1 = unique_id_from_entry_data data2)
  /\ lower (unique_id_from_entry_data data1)
     = unique_id_from_entry_data data1.
Proof.
  unfold unique_id_from_entry_data, well_formed. split; [|split].
  - intros Hnd1 Hnd2 Hkeys.
    rewrite (sorted_Permutation (keys (vehicles data1))
               (keys (vehicles data2))); [reflexivity|].
    apply NoDup_Permutation; assumption.
  - intros Hlower. rewrite !lower_join, Hlower. reflexivity.
  - apply lower_idempotent.
Qed.

Lemma unique_id_stable_witness :
  unique_id_from_entry_data entry_aB = unique_id_from_entry_data entry_Ba
  /\ unique_id_from_entry_data entry_lower
     = unique_id_from_entry_data entry_upper.
Proof.
  split.
  - apply (proj1 (unique_id_stable entry_aB entry_Ba)).
    + unfold well_formed. apply (bool_decide_unpack _). vm_compute. exact I.
    + unfold well_formed. apply (bool_decide_unpack _). vm_compute. exact I.
    + intros k. cbn. rewrite !elem_of_cons, elem_of_nil. tauto.
  - apply (proj1 (proj2 (unique_id_stable entry_lower entry_upper))).
    vm_compute. reflexivity.
Defined.

(** * Further properties *)

(** ** What a sensor shows *)

(** In [SENSOR_TYPES] a descriptor has its two conversions exactly when it has
    an imperial unit. *)
Lemma SENSOR_TYPES_conversions (d : SmartcarSensorDescription) :
  d ∈ SENSOR_TYPES ->
  callable_truthy (to_native_conversion d)
  = bool_decide (is_Some (imperial_unit_of_measurement d))
  /\ callable_truthy (from_native_conversion d)
     = bool_decide (is_Some (imperial_unit_of_measurement d)).
Proof.
  intros Hd. each_sensor_type Hd; split; vm_compute; reflexivity.
Qed.

(** X1: the value and the unit of an entity built by [__init__] from a
    descriptor of [SENSOR_TYPES], for a cached value that is not [None].
    Without an imperial unit the entity shows the cached value in the native
    unit.  With one, the imperial preference gives the imperial unit and the
    value [from_native_conversion] returns; otherwise the entity keeps the
    native unit and shows the value [to_native_conversion] returns. *)
Theorem sensor_value_and_unit
    (raw : SmartcarSensor -> result PyVal) (c : SmartcarVehicleCoordinator)
    (d : SmartcarSensorDescription) (v : PyVal) :
  d ∈ SENSOR_TYPES ->
  raw (SmartcarSensor_init c d) = Ok v -> v <> PyNone ->
  match imperial_unit_of_measurement d with
  | None =>
      _attr_native_unit_of_measurement (SmartcarSensor_init c d)
      = native_unit_of_measurement d
      /\ _extract_value raw (SmartcarSensor_init c d) = Ok v
  | Some u =>
      if truthy (_use_imperial (SmartcarSensor_init c d))
      then _attr_native_unit_of_measurement (SmartcarSensor_init c d) = Some u
           /\ _extract_value raw (SmartcarSensor_init c d)
              = call (from_native_conversion d) v
      else _attr_native_unit_of_measurement (SmartcarSensor_init c d)
           = native_unit_of_measurement d
           /\ _extract_value raw (SmartcarSensor_init c d)
              = call (to_native_conversion d) v
  end.
Proof.
  intros Hd Hraw Hv.
  rewrite (extract_value_present raw _ v Hraw Hv).
  destruct (SENSOR_TYPES_conversions d Hd) as [Hto Hfrom].
  pose proof (SENSOR_TYPES_imperial_unit d Hd) as Hunit.
  cbn [SmartcarSensor_init entity_description _use_imperial
       _attr_native_unit_of_measurement].
  rewrite Hto, Hfrom, Hunit.
  destruct (imperial_unit_of_measurement d) as [u|]; cbn.
  - destruct (truthy _); cbn; split; reflexivity.
  - rewrite !andb_false_r. split; reflexivity.
Qed.

Lemma sensor_value_and_unit_witness :
  _attr_native_unit_of_measurement
    (SmartcarSensor_init metric_coordinator ODOMETER_description)
  = Some "km"
  /\ _extract_value (cached (PyFloat 100))
       (SmartcarSensor_init metric_coordinator ODOMETER_description)
     = call (to_native_conversion ODOMETER_description) (PyFloat 100).
Proof.
  refine (sensor_value_and_unit (cached (PyFloat 100)) metric_coordinator
            ODOMETER_description (PyFloat 100) _ eq_refl _).
  - unfold SENSOR_TYPES. repeat constructor.
  - discriminate.
Defined.

(** A conversion between two different units returns a [float] or raises. *)
Lemma convert_returns_float (cls : BaseUnitConverter) (v r : PyVal)
    (from_unit to_unit : string) :
  String.eqb from_unit to_unit = false ->
  convert cls v from_unit to_unit = Ok r -> exists f, r = PyFloat f.
Proof.
  intros Hne. unfold convert. rewrite Hne.
  destruct (table_get _ from_unit) as [from_ratio|]; [|discriminate].
  destruct (table_get _ to_unit) as [to_ratio|]; [|discriminate].
  unfold py_truediv_float, py_mul_float.
  destruct (from_ratio =? 0)%float, v as [|b|z|x|s]; cbn; try discriminate.
  - destruct (float_of_Z (Z_of_bool b)); cbn; [|discriminate].
    intros [= <-]. eauto.
  - destruct (float_of_Z z); cbn; [|discriminate]. intros [= <-]. eauto.
  - intros [= <-]. eauto.
Qed.

(** The conversions of [SENSOR_TYPES] never return [None]. *)
Lemma SENSOR_TYPES_conversion_not_None
    (d : SmartcarSensorDescription) (v : PyVal) :
  d ∈ SENSOR_TYPES ->
  call (to_native_conversion d) v <> Ok PyNone
  /\ call (from_native_conversion d) v <> Ok PyNone.
Proof.
  intros Hd.
  each_sensor_type Hd; cbn -[convert]; split; try discriminate;
    intros Hconv; apply convert_returns_float in Hconv;
    try reflexivity; destruct Hconv as [f [=]].
Qed.

(** X2: an entity of a [SENSOR_TYPES] descriptor has no value ([None])
    exactly when its raw value is [None]: no conversion turns a cached value
    into [None], and an exception of the raw extraction is not turned into
    [None] either. *)
Theorem extract_value_None_iff
    (raw : SmartcarSensor -> result PyVal) (self : SmartcarSensor) :
  entity_description self ∈ SENSOR_TYPES ->
  (_extract_value raw self = Ok PyNone <-> raw self = Ok PyNone).
Proof.
  intros Hd. split.
  - destruct (raw self) as [v|e] eqn:Hraw.
    + destruct (decide (is_None v = true)) as [Hnone|Hsome].
      { destruct v; try discriminate Hnone. reflexivity. }
      assert (v <> PyNone) as Hv by (intros ->; apply Hsome; reflexivity).
      rewrite (extract_value_present raw self v Hraw Hv).
      destruct (SENSOR_TYPES_conversion_not_None _ v Hd) as [Hto Hfrom].
      repeat case_match; try contradiction.
      intros [= ->]. contradiction.
    + rewrite (extract_value_raises raw self e Hraw). discriminate.
  - intros Hraw. unfold _extract_value. rewrite Hraw. reflexivity.
Qed.

Lemma extract_value_None_iff_witness :
  _extract_value (cached PyNone)
    (SmartcarSensor_init metric_coordinator RANGE_description) = Ok PyNone
  <-> cached PyNone (SmartcarSensor_init metric_coordinator RANGE_description)
      = Ok PyNone.
Proof.
  apply (extract_value_None_iff (cached PyNone)
           (SmartcarSensor_init metric_coordinator RANGE_description)).
  unfold SENSOR_TYPES. cbn. repeat constructor.
Defined.

(** X3: the fuel sensor has no displayable value.  Whatever fuel amount is
    cached, [native_value] raises the converter's error: for the unit "L"
    under the imperial preference and for "gal" otherwise. *)
Theorem fuel_native_value_raises
    (raw : SmartcarSensor -> result PyVal) (c : SmartcarVehicleCoordinator)
    (v : PyVal) :
  raw (SmartcarSensor_init c FUEL_description) = Ok v -> v <> PyNone ->
  native_value raw (SmartcarSensor_init c FUEL_description)
  = Raise (HomeAssistantError
             (if truthy (default (PyBool false) (config_use_imperial c))
              then "L" else "gal")
             "distance").
Proof.
  intros Hraw Hv. unfold native_value.
  rewrite (extract_value_present raw _ v Hraw Hv). cbn.
  destruct (truthy _); reflexivity.
Qed.

Lemma fuel_native_value_raises_witness :
  native_value (cached (PyFloat 41.5))
    (SmartcarSensor_init imperial_coordinator FUEL_description)
  = Raise (HomeAssistantError "L" "distance").
Proof.
  refine (fuel_native_value_raises (cached (PyFloat 41.5))
            imperial_coordinator (PyFloat 41.5) eq_refl _).
  discriminate.
Defined.

(** X4: a text value cached for a descriptor with conversions is not passed
    through: the conversion raises, [TypeError] from the arithmetic for the
    distance and pressure descriptors and the converter's error for fuel. *)
Theorem extract_value_of_str_raises
    (raw : SmartcarSensor -> result PyVal) (c : SmartcarVehicleCoordinator)
    (d : SmartcarSensorDescription) (s : string) :
  d ∈ SENSOR_TYPES ->
  is_Some (imperial_unit_of_measurement d) ->
  raw (SmartcarSensor_init c d) = Ok (PyStr s) ->
  exists e,
    _extract_value raw (SmartcarSensor_init c d) = Raise e
    /\ (key d <> FUEL -> e = TypeError).
Proof.
  intros Hd Hunit Hraw.
  rewrite (extract_value_present raw _ (PyStr s) Hraw) by discriminate.
  cbn [SmartcarSensor_init entity_description _use_imperial].
  each_sensor_type Hd; try (destruct Hunit as [? [=]]);
    destruct (truthy _); cbn; eexists; (split; [reflexivity|]);
    first [ reflexivity | intros Hkey; contradiction Hkey; reflexivity
          | intros _; reflexivity ].
Qed.

Lemma extract_value_of_str_raises_witness :
  exists e,
    _extract_value (cached (PyStr "12.5"))
      (SmartcarSensor_init metric_coordinator
         TIRE_PRESSURE_BACK_LEFT_description) = Raise e
    /\ (key TIRE_PRESSURE_BACK_LEFT_description <> FUEL -> e = TypeError).
Proof.
  apply (extract_value_of_str_raises (cached (PyStr "12.5"))
           metric_coordinator TIRE_PRESSURE_BACK_LEFT_description "12.5").
  - unfold SENSOR_TYPES. repeat constructor.
  - eexists. reflexivity.
  - reflexivity.
Defined.

(** ** The entities [async_setup_entry] adds *)

(** The keys of [SENSOR_TYPES] are pairwise different. *)
Lemma SENSOR_TYPES_keys_NoDup : NoDup (map key SENSOR_TYPES).
Proof. apply (bool_decide_unpack _). vm_compute. exact I. Qed.

(** The entities of one coordinator, by descriptor key. *)
Lemma enabled_entities_keys (c : SmartcarVehicleCoordinator)
    (ds : list SmartcarSensorDescription) :
  map (fun e => (vin (coordinator e), key (entity_description e)))
    (d ← ds;
     if is_scope_enabled c (key d) then [SmartcarSensor_init c d] else [])
  = map (fun k => (vin c, k))
      (filter (fun k => is_scope_enabled c k = true) (map key ds)).
Proof.
  induction ds as [|d ds IH]; [reflexivity|].
  rewrite bind_cons, map_app, IH. cbn [map]. rewrite filter_cons.
  destruct (is_scope_enabled c (key d)) eqn:Hscope.
  - rewrite decide_True by reflexivity. reflexivity.
  - rewrite decide_False by discriminate. reflexivity.
Qed.

Lemma async_setup_entry_cons (k : string) (c : SmartcarVehicleCoordinator)
    (coordinators : list (string * SmartcarVehicleCoordinator)) :
  async_setup_entry ((k, c) :: coordinators)
  = async_setup_entry [(k, c)] ++ async_setup_entry coordinators.
Proof.
  unfold async_setup_entry. cbn [fmap list_fmap snd].
  rewrite !bind_cons. cbn [mbind list_bind]. rewrite app_nil_r. reflexivity.
Qed.

Lemma async_setup_entry_vins
    (coordinators : list (string * SmartcarVehicleCoordinator))
    (e : SmartcarSensor) :
  e ∈ async_setup_entry coordinators ->
  vin (coordinator e) ∈ map vin (values coordinators).
Proof.
  unfold async_setup_entry, values. intros He.
  apply list_elem_of_bind in He as (c & He & Hc).
  apply list_elem_of_bind in He as (d & He & _).
  destruct (is_scope_enabled c (key d)).
  - apply list_elem_of_singleton in He as ->. cbn.
    apply list_elem_of_fmap. eauto.
  - apply elem_of_nil in He. contradiction.
Qed.

(** X5: when the coordinators of the entry are for different vehicles, no two
    of the entities added have the same vehicle and the same descriptor key. *)
Theorem async_setup_entry_unique
    (coordinators : list (string * SmartcarVehicleCoordinator)) :
  NoDup (map vin (values coordinators)) ->
  NoDup (map (fun e => (vin (coordinator e), key (entity_description e)))
           (async_setup_entry coordinators)).
Proof.
  induction coordinators as [|[k c] cs IH]; intros Hvins.
  - constructor.
  - unfold values in Hvins. cbn in Hvins. apply NoDup_cons in Hvins.
    destruct Hvins as [Hc Hcs].
    rewrite async_setup_entry_cons, map_app. apply NoDup_app. split; [|split].
    + unfold async_setup_entry. cbn [fmap list_fmap snd].
      rewrite bind_singleton, enabled_entities_keys.
      apply (NoDup_fmap_2 _). apply NoDup_filter, SENSOR_TYPES_keys_NoDup.
    + intros [v key_] Hone Hrest.
      apply list_elem_of_fmap in Hone as (e1 & [= -> ->] & He1).
      apply list_elem_of_fmap in Hrest as (e2 & [= Hv _] & He2).
      apply async_setup_entry_vins in He1, He2.
      unfold values in He1, He2. cbn in He1.
      apply list_elem_of_singleton in He1.
      apply Hc. rewrite <- He1, Hv. exact He2.
    + apply IH. exact Hcs.
Qed.

Lemma async_setup_entry_unique_witness :
  NoDup (map (fun e => (vin (coordinator e), key (entity_description e)))
           (async_setup_entry
              [("v1", imperial_coordinator); ("v2", metric_coordinator)])).
Proof.
  apply (async_setup_entry_unique
           [("v1", imperial_coordinator); ("v2", metric_coordinator)]).
  apply (bool_decide_unpack _). vm_compute. exact I.
Defined.

Lemma disabled_coordinator_entities (c : SmartcarVehicleCoordinator)
    (ds : list SmartcarSensorDescription) :
  (forall k, is_scope_enabled c k = false) ->
  (d ← ds;
   if is_scope_enabled c (key d) then [SmartcarSensor_init c d] else [])
  = [].
Proof.
  intros Hnone. induction ds as [|d ds IH]; [reflexivity|].
  rewrite bind_cons, IH, Hnone. reflexivity.
Qed.

(** X6: the number of entities added is the number of enabled descriptors,
    summed over the coordinators; it is at most thirteen for each
    coordinator, and zero when no coordinator enables a scope. *)
Theorem async_setup_entry_count
    (coordinators : list (string * SmartcarVehicleCoordinator)) :
  length (async_setup_entry coordinators)
  = sum_list
      (map (fun c =>
              length (filter (fun d => is_scope_enabled c (key d) = true)
                        SENSOR_TYPES))
         (values coordinators))
  /\ (length (async_setup_entry coordinators)
      <= 13 * length coordinators)%nat
  /\ ((forall c k, c ∈ values coordinators -> is_scope_enabled c k = false) ->
      async_setup_entry coordinators = []).
Proof.
  split; [apply async_setup_entry_length|]. split.
  - rewrite async_setup_entry_length. unfold values.
    induction coordinators as [|[k c] cs IH]; [reflexivity|].
    cbn [fmap list_fmap snd map sum_list sum_list_with length].
    pose proof (length_filter
      (fun d => is_scope_enabled c (key d) = true) SENSOR_TYPES) as Hle.
    change (length SENSOR_TYPES) with 13%nat in Hle.
    cbn [map] in IH. unfold id.
    apply (Nat.add_le_mono _ 13 _ (13 * length cs) Hle) in IH.
    rewrite Nat.mul_succ_r, (Nat.add_comm (13 * length cs)). exact IH.
  - intros Hnone. unfold async_setup_entry, values in *.
    induction (coordinators.*2) as [|c cs IH]; [reflexivity|].
    rewrite bind_cons, IH.
    + rewrite app_nil_r. apply disabled_coordinator_entities.
      intros k'. apply Hnone. constructor.
    + intros c' k' Hc'. apply Hnone. constructor. exact Hc'.
Qed.

(** X7: the entities are added coordinator by coordinator, in the order of
    the coordinators, and for one coordinator in the order of [SENSOR_TYPES]:
    their keys are the keys of [SENSOR_TYPES] with the disabled ones left
    out. *)
Theorem async_setup_entry_order
    (coordinators1 coordinators2 : list (string * SmartcarVehicleCoordinator))
    (k : string) (c : SmartcarVehicleCoordinator) :
  async_setup_entry (coordinators1 ++ coordinators2)
  = async_setup_entry coordinators1 ++ async_setup_entry coordinators2
  /\ map (fun e => (vin (coordinator e), key (entity_description e)))
       (async_setup_entry [(k, c)])
     = map (fun key_ => (vin c, key_))
         (filter (fun key_ => is_scope_enabled c key_ = true)
            (map key SENSOR_TYPES)).
Proof.
  split.
  - unfold async_setup_entry. rewrite fmap_app, bind_app. reflexivity.
  - unfold async_setup_entry. cbn [fmap list_fmap snd].
    rewrite bind_singleton. apply enabled_entities_keys.
Qed.

(** ** The fraction-to-percent transform *)

(** X8: what the transform of the battery-level and fuel-percent
    descriptors can return.  A falsy input comes back as it is; a truthy
    input gives an [int] or an exception.  So the result is [None] only for
    the input [None]. *)
Theorem fraction_to_percent_result (v r : PyVal) :
  fraction_to_percent v = Ok r ->
  (truthy v = false -> r = v)
  /\ (truthy v = true -> exists n, r = PyInt n)
  /\ (r = PyNone <-> v = PyNone).
Proof.
  unfold fraction_to_percent, py_and. destruct (truthy v) eqn:Htruthy.
  - intros Hr.
    assert (exists n, r = PyInt n) as [n ->].
    { destruct v as [|b|z|f|s]; cbn in Hr.
      - discriminate Hr.
      - injection Hr as <-. eauto.
      - injection Hr as <-. eauto.
      - destruct (float_of_Z 100) as [k|]; cbn in Hr; [|discriminate Hr].
        destruct (Prim2SF (f * k)); cbn in Hr;
          first [discriminate Hr | injection Hr as <-; eauto].
      - discriminate Hr. }
    split; [discriminate|]. split; [eauto|].
    split; [discriminate|]. intros ->. discriminate Htruthy.
  - intros [= <-]. split; [reflexivity|]. split; [discriminate|]. reflexivity.
Qed.

Lemma fraction_to_percent_result_witness :
  (truthy (PyFloat 0.42) = false -> PyInt 42 = PyFloat 0.42)
  /\ (truthy (PyFloat 0.42) = true -> exists n, PyInt 42 = PyInt n)
  /\ (PyInt 42 = PyNone <-> PyFloat 0.42 = PyNone).
Proof.
  apply (fraction_to_percent_result (PyFloat 0.42) (PyInt 42)).
  vm_compute. reflexivity.
Defined.

(** X9: the transform on inputs that are not floats.  An [int] is multiplied
    by 100 and not rounded, [True] gives 100 and [False] stays [False], the
    empty text stays as it is, and any other text raises [TypeError]. *)
Theorem fraction_to_percent_not_float (z : Z) (s : string) :
  fraction_to_percent (PyInt z) = Ok (PyInt (z * 100))
  /\ fraction_to_percent (PyBool true) = Ok (PyInt 100)
  /\ fraction_to_percent (PyBool false) = Ok (PyBool false)
  /\ fraction_to_percent (PyStr s)
     = if String.eqb s "" then Ok (PyStr s) else Raise TypeError.
Proof.
  unfold fraction_to_percent, py_and. cbn.
  split; [|split; [reflexivity|split; [reflexivity|]]].
  - destruct (Z.eqb_spec z 0) as [->|Hz]; reflexivity.
  - destruct (String.eqb s ""); reflexivity.
Qed.

(** [round_half_even m e] is an integer nearest to [m * 2^e], and the even
    one of the two when [m * 2^e] lies half way. *)
Lemma round_half_even_nearest (m : positive) (e : Z) :
  e < 0 ->
  Z.abs (2 * (round_half_even m e * 2 ^ (- e) - Z.pos m)) <= 2 ^ (- e)
  /\ (Z.abs (2 * (round_half_even m e * 2 ^ (- e) - Z.pos m)) = 2 ^ (- e) ->
      Z.even (round_half_even m e) = true).
Proof.
  intros He. unfold round_half_even.
  destruct (Z.leb_spec 0 e) as [Hge|_]; [lia|].
  assert (0 < 2 ^ (- e)) as Hd by (apply Z.pow_pos_nonneg; lia).
  set (d := 2 ^ (- e)) in *.
  pose proof (Z.div_mod (Z.pos m) d ltac:(lia)) as Hdiv.
  pose proof (Z.mod_pos_bound (Z.pos m) d Hd) as Hmod.
  set (q := Z.pos m / d) in *. set (r := Z.pos m mod d) in *.
  destruct (Z.compare_spec (2 * r) d) as [Heq|Hlt|Hgt].
  - destruct (Z.even q) eqn:Heven.
    + split; [lia|]. intros _. exact Heven.
    + split; [lia|]. intros _.
      replace (q + 1) with (Z.succ q) by lia.
      rewrite Z.even_succ, <- Z.negb_even, Heven. reflexivity.
  - split; lia.
  - split; lia.
Qed.

(** X10: the transform on a float fraction that is not zero.  With [x] the
    float product [pct * 100]: a NaN raises [ValueError], an infinity raises
    [OverflowError], and a finite [x] gives the integer nearest to [x], the
    even one when [x] lies half way between two integers. *)
Theorem fraction_to_percent_float (pct : float) :
  truthy (PyFloat pct) = true ->
  match Prim2SF (pct * 100) with
  | S754_nan => fraction_to_percent (PyFloat pct) = Raise ValueError
  | S754_infinity _ => fraction_to_percent (PyFloat pct) = Raise OverflowError
  | S754_zero _ => fraction_to_percent (PyFloat pct) = Ok (PyInt 0)
  | S754_finite sign m e =>
      exists n,
        fraction_to_percent (PyFloat pct)
        = Ok (PyInt (if sign then - n else n))
        /\ (0 <= e -> n = Z.pos m * 2 ^ e)
        /\ (e < 0 ->
            Z.abs (2 * (n * 2 ^ (- e) - Z.pos m)) <= 2 ^ (- e)
            /\ (Z.abs (2 * (n * 2 ^ (- e) - Z.pos m)) = 2 ^ (- e) ->
                Z.even n = true))
  end.
Proof.
  intros Htruthy. unfold fraction_to_percent, py_and. rewrite Htruthy.
  change (py_mul_int (PyFloat pct) 100) with (Ok (PyFloat (pct * 100))).
  cbn [mbind result_bind py_round].
  destruct (Prim2SF (pct * 100)) as [sign|sign| |sign m e]; try reflexivity.
  exists (round_half_even m e). split; [reflexivity|]. split.
  - intros He. unfold round_half_even.
    destruct (Z.leb_spec 0 e); [reflexivity|lia].
  - apply round_half_even_nearest.
Qed.

Lemma fraction_to_percent_float_witness :
  exists n,
    fraction_to_percent (PyFloat 0.125) = Ok (PyInt n)
    /\ (0 <= -49 -> n = 7036874417766400 * 2 ^ (-49))
    /\ (-49 < 0 ->
        Z.abs (2 * (n * 2 ^ 49 - 7036874417766400)) <= 2 ^ 49
        /\ (Z.abs (2 * (n * 2 ^ 49 - 7036874417766400)) = 2 ^ 49 ->
            Z.even n = true)).
Proof.
  exact (fraction_to_percent_float 0.125 eq_refl).
Defined.

(** ** The entry-data helpers *)

(** X11: [vins_from_entry_data] does not depend on the insertion order of
    the vehicle records: it is the same for two entries whose records hold the
    same VINs, each as often. *)
Theorem vins_order_independent (data1 data2 : EntryData) :
  map vehicle_vin (values (vehicles data1))
  ≡ₚ map vehicle_vin (values (vehicles data2)) ->
  vins_from_entry_data data1 = vins_from_entry_data data2.
Proof.
  intros Hperm. unfold vins_from_entry_data.
  rewrite (sorted_Permutation _ _ Hperm). reflexivity.
Qed.

Lemma vins_order_independent_witness :
  vins_from_entry_data entry_two = vins_from_entry_data entry_two_reordered.
Proof.
  apply (vins_order_independent entry_two entry_two_reordered).
  apply perm_swap.
Defined.

Lemma append_blank_split (x x' r r' : string) :
  space_free x = true -> space_free x' = true ->
  String.append x (String " " r) = String.append x' (String " " r') ->
  x = x' /\ r = r'.
Proof.
  revert x'. induction x as [|c x IH]; intros [|c' x'] Hx Hx' Heq.
  - injection Heq as ->. split; reflexivity.
  - injection Heq as <- _. discriminate Hx'.
  - injection Heq as -> _. discriminate Hx.
  - cbn in Hx, Hx'. apply andb_prop in Hx as [_ Hx], Hx' as [_ Hx'].
    injection Heq as -> Heq. destruct (IH x' Hx Hx' Heq) as [-> ->].
    split; reflexivity.
Qed.

Lemma append_blank_not_space_free (x r x' : string) :
  space_free x' = true -> String.append x (String " " r) <> x'.
Proof.
  revert x'. induction x as [|c x IH]; intros [|c' x'] Hx' Heq;
    try discriminate Heq.
  - injection Heq as <- _. discriminate Hx'.
  - cbn in Hx'. apply andb_prop in Hx' as [_ Hx'].
    injection Heq as _ Heq. exact (IH x' Hx' Heq).
Qed.

Lemma join_cons_cons (x y : string) (l : list string) :
  join " " (x :: y :: l) = String.append x (String " " (join " " (y :: l))).
Proof. reflexivity. Qed.

(** Joining with blanks loses nothing when the parts are not empty and hold
    no blank. *)
Lemma join_blank_inj (l1 l2 : list string) :
  Forall (fun k => k <> EmptyString /\ space_free k = true) l1 ->
  Forall (fun k => k <> EmptyString /\ space_free k = true) l2 ->
  join " " l1 = join " " l2 -> l1 = l2.
Proof.
  intros H1. revert l2. induction H1 as [|x l1 [Hx Hsx] H1 IH];
    intros l2 H2 Heq.
  - destruct H2 as [|y l2 [Hy _] _]; [reflexivity|].
    destruct l2 as [|y' l2]; [cbn in Heq; congruence|].
    rewrite join_cons_cons in Heq. destruct y; [congruence|discriminate Heq].
  - destruct H2 as [|y l2 [Hy Hsy] H2].
    { destruct l1 as [|x' l1]; [cbn in Heq; congruence|].
      rewrite join_cons_cons in Heq. destruct x; [congruence|discriminate Heq]. }
    destruct l1 as [|x' l1], l2 as [|y' l2].
    + cbn in Heq. congruence.
    + rewrite join_cons_cons in Heq. cbn [join String.concat] in Heq.
      symmetry in Heq. apply append_blank_not_space_free in Heq; [easy|exact Hsx].
    + rewrite join_cons_cons in Heq. cbn [join String.concat] in Heq.
      apply append_blank_not_space_free in Heq; [easy|exact Hsy].
    + rewrite !join_cons_cons in Heq.
      apply append_blank_split in Heq as [-> Heq]; [|assumption..].
      f_equal. apply IH; assumption.
Qed.



(** ** The entry-data helpers and their lookups *)

Lemma comprehension_Forall2 {A B : Type} (f : A -> untyped.res B)
    (l : list A) (ys : list B) :
  untyped.comprehension f l = untyped.Return ys
  <-> Forall2 (fun x y => f x = untyped.Return y) l ys.
Proof.
  revert ys. induction l as [|x l IH]; intros ys; cbn.
  - split.
    + intros [= <-]. constructor.
    + intros Hnil. inversion Hnil. reflexivity.
  - split.
    + destruct (f x) as [y|e] eqn:Hfx; cbn; [|discriminate].
      destruct (untyped.comprehension f l) as [ys'|e]; cbn; [|discriminate].
      intros [= <-]. constructor; [exact Hfx|]. apply IH. reflexivity.
    + intros Hcons. inversion Hcons as [|? y ? ys' Hfx Hrest]; subst.
      apply IH in Hrest. rewrite Hfx, Hrest. reflexivity.
Qed.

Lemma stands_for_keys (items : list (string * untyped.Json))
    (vs : list (string * Vehicle)) :
  Forall2 (fun kj kv =>
             kj.1 = kv.1
             /\ untyped.getitem kj.2 "vin"
                = untyped.Return (untyped.JStr (vehicle_vin kv.2)))
    items vs ->
  keys items = keys vs
  /\ untyped.comprehension (fun vehicle => untyped.getitem vehicle "vin")
       (values items)
     = untyped.Return
         (map untyped.JStr (map vehicle_vin (values vs))).
Proof.
  unfold keys, values. induction 1 as [|kj kv items vs [Hk Hvin] _ [IHk IHv]].
  - split; reflexivity.
  - cbn. rewrite Hk, IHk, Hvin, IHv. split; reflexivity.
Qed.

Lemma comprehension_as_str (l : list string) :
  untyped.comprehension untyped.as_str (map untyped.JStr l)
  = untyped.Return l.
Proof. induction l as [|s l IH]; cbn; [|rewrite IH]; reflexivity. Qed.

Lemma json_of_entry_data_stands_for (ed : EntryData) :
  untyped.stands_for (untyped.json_of_entry_data ed) ed.
Proof.
  exists (map (fun kv => (kv.1, untyped.json_of_vehicle kv.2)) (vehicles ed)).
  split; [reflexivity|].
  induction (vehicles ed) as [|kv vs IH]; constructor; [|exact IH].
  split; reflexivity.
Qed.



(** X14: on entry data without the entry "vehicles" both helpers raise
    [KeyError] for "vehicles". *)
Theorem entry_data_helpers_without_vehicles
    (items : list (string * untyped.Json)) :
  untyped.dict_get items "vehicles" = None ->
  untyped.unique_id_from_entry_data (untyped.JDict items)
  = untyped.Throw (untyped.KeyError "vehicles")
  /\ untyped.vins_from_entry_data (untyped.JDict items)
     = untyped.Throw (untyped.KeyError "vehicles").
Proof.
  intros Hmissing.
  unfold untyped.unique_id_from_entry_data, untyped.vins_from_entry_data,
    untyped.getitem.
  rewrite Hmissing. split; reflexivity.
Qed.

Lemma entry_data_helpers_without_vehicles_witness :
  untyped.unique_id_from_entry_data json_no_vehicles
  = untyped.Throw (untyped.KeyError "vehicles")
  /\ untyped.vins_from_entry_data json_no_vehicles
     = untyped.Throw (untyped.KeyError "vehicles").
Proof.
  apply (entry_data_helpers_without_vehicles
           [("access_token", untyped.JStr "t0")]).
  reflexivity.
Defined.

Lemma comprehension_vin_missing (records : list untyped.Json) :
  Forall (fun r => exists fields, r = untyped.JDict fields) records ->
  Exists (fun r => forall fields,
            r = untyped.JDict fields -> untyped.dict_get fields "vin" = None)
    records ->
  untyped.comprehension (fun vehicle => untyped.getitem vehicle "vin") records
  = untyped.Throw (untyped.KeyError "vin").
Proof.
  intros Hdicts Hmissing.
  induction Hdicts as [|r records [fields ->] _ IH]; [inversion Hmissing|].
  cbn. destruct (untyped.dict_get fields "vin") as [v|] eqn:Hvin; cbn.
  - inversion Hmissing as [? ? Hhere|? ? Hlater]; subst.
    + rewrite (Hhere fields eq_refl) in Hvin. discriminate Hvin.
    + rewrite (IH Hlater). reflexivity.
  - reflexivity.
Qed.



Lemma records_typed (items : list (string * untyped.Json))
    (strs : list string) :
  Forall2 (fun kj s =>
             untyped.getitem kj.2 "vin" = untyped.Return (untyped.JStr s))
    items strs ->
  exists vs,
    Forall2 (fun kj kv =>
               kj.1 = kv.1
               /\ untyped.getitem kj.2 "vin"
                  = untyped.Return (untyped.JStr (vehicle_vin kv.2)))
      items vs
    /\ map vehicle_vin (values vs) = strs.
Proof.
  induction 1 as [|kj s items strs Hvin _ (vs & Hvs & Hstrs)].
  - exists []. split; [constructor|reflexivity].
  - exists ((kj.1, {| vehicle_vin := s |}) :: vs). split.
    + constructor; [split; [reflexivity|exact Hvin]|exact Hvs].
    + unfold values in *. cbn. rewrite Hstrs. reflexivity.
Qed.

(** X16: [vins_from_entry_data] returns only on well-formed data: when it
    returns a string, the data has a dict under "vehicles", every record of
    it has a text under "vin", and the string is the sorted VINs joined by
    blanks. *)
Theorem vins_returns_only_on_well_formed (data : untyped.Json) (s : string) :
  untyped.vins_from_entry_data data = untyped.Return s ->
  exists ed, untyped.stands_for data ed /\ s = vins_from_entry_data ed.
Proof.
  unfold untyped.vins_from_entry_data, untyped.stands_for.
  destruct (untyped.getitem data "vehicles") as [v|e]; cbn; [|discriminate].
  destruct v as [| | | | | |items]; cbn; try discriminate.
  destruct (untyped.comprehension _ (values items)) as [vins|e] eqn:Hvins;
    cbn; [|discriminate].
  destruct (untyped.comprehension untyped.as_str vins) as [strs|e] eqn:Hstrs;
    cbn; [|discriminate].
  intros [= <-].
  apply comprehension_Forall2 in Hvins, Hstrs.
  assert (Forall2 (fun kj s =>
            untyped.getitem kj.2 "vin" = untyped.Return (untyped.JStr s))
            items strs) as Hrecords.
  { unfold values in Hvins. apply Forall2_fmap_l in Hvins.
    clear -Hvins Hstrs. revert strs Hstrs.
    induction Hvins as [|kj y items vins Hy _ IH]; intros strs Hstrs.
    - inversion Hstrs. constructor.
    - inversion Hstrs as [|? s' ? strs' Hs Hrest]; subst.
      constructor; [|apply IH; exact Hrest].
      cbn in Hy. rewrite Hy. destruct y; try discriminate Hs.
      injection Hs as ->. reflexivity. }
  destruct (records_typed items strs Hrecords) as (vs & Hvs & Hmap).
  exists {| vehicles := vs |}. split.
  - exists items. split; [reflexivity|exact Hvs].
  - unfold vins_from_entry_data. cbn [vehicles]. rewrite Hmap. reflexivity.
Qed.

Lemma vins_returns_only_on_well_formed_witness :
  exists ed,
    untyped.stands_for json_two ed
    /\ "5YJSA1E26HF000001 5YJSA1E26HF000002" = vins_from_entry_data ed.
Proof.
  apply (vins_returns_only_on_well_formed json_two).
  vm_compute. reflexivity.
Defined.
